(** * config_loader: file parse, environment override, schema validation

    A shallow embedding of [src/config_loader.py].  The module reads one JSON
    file, optionally replaces values by same-named (upper-cased) environment
    variables, and builds a [ConfigSchema] object from the resulting dict.

    Python values are an inductive type, dicts are finite maps with string
    keys, exceptions are values of type [exn] carried by the [outcome] monad,
    and the two pieces of ambient state the code reads (the file system and
    [os.environ]) are explicit arguments.  Two things depend on the platform
    and are parameters: what [str.upper] does to text that is not ASCII, and
    which names that are not ASCII the environment lookup can encode.
    Logging calls have no influence on results and are left out. *)

From Stdlib Require Import ZArith SpecFloat Ascii String.
From stdpp Require Import gmap strings list fin_maps.

Local Open Scope string_scope.
Local Open Scope Z_scope.

(** ** Python values *)

(** The values [json.load] can produce: [None], [bool], [int], [float],
    [str], [list] and [dict] with [str] keys.  An environment override stores
    a [str]. *)
#[warnings="-register-all"]
Inductive value : Type :=
| VNone
| VBool (b : bool)
| VInt (z : Z)
| VFloat (f : spec_float)
| VStr (s : string)
| VList (l : list value)
| VDict (d : gmap string value).

(** Truth value testing, as used by [if not config]: [None], [False], zero of
    either numeric type and empty containers are false. *)
Definition truthy (v : value) : bool :=
  match v with
  | VNone => false
  | VBool b => b
  | VInt z => negb (z =? 0)
  | VFloat f => match f with S754_zero _ => false | _ => true end
  | VStr s => negb (Nat.eqb (String.length s) 0)
  | VList l => negb (Nat.eqb (length l) 0)
  | VDict d => negb (Nat.eqb (size d) 0)
  end.

(** ** Exceptions

    An exception is its class and its arguments.  The [__context__] link
    Python sets on an exception raised inside an [except] clause is left
    out, and so are the arguments of [UnicodeEncodeError] (encoding, text,
    position, reason). *)

Inductive error_type : Type :=
| missing   (* required field absent *)
| invalid   (* value present but not convertible to the field's type *).

(** One entry of a validation error: the field and what is wrong with it. *)
Record error_details : Type := ErrorDetails {
  loc : string;
  type : error_type
}.

Inductive exn : Type :=
| OSError (msg : string)
| FileNotFoundError (filename : string)
| ValueError (msg : string)
| JSONDecodeError (msg : string) (pos : nat)
| UnicodeDecodeError (reason : string)
| UnicodeEncodeError
| AttributeError (msg : string)
| TypeError (msg : string)
| ValidationError (errors : list error_details).

Inductive exn_class : Type :=
| cOSError | cFileNotFoundError | cValueError | cJSONDecodeError
| cUnicodeDecodeError | cUnicodeEncodeError | cAttributeError | cTypeError
| cValidationError.

Definition class_of (e : exn) : exn_class :=
  match e with
  | OSError _ => cOSError
  | FileNotFoundError _ => cFileNotFoundError
  | ValueError _ => cValueError
  | JSONDecodeError _ _ => cJSONDecodeError
  | UnicodeDecodeError _ => cUnicodeDecodeError
  | UnicodeEncodeError => cUnicodeEncodeError
  | AttributeError _ => cAttributeError
  | TypeError _ => cTypeError
  | ValidationError _ => cValidationError
  end.

(** [issubclass c d]: [FileNotFoundError] derives from [OSError];
    [json.JSONDecodeError], [UnicodeDecodeError], [UnicodeEncodeError] and
    pydantic's [ValidationError] derive from [ValueError]. *)
Definition issubclass (c d : exn_class) : bool :=
  match c, d with
  | cOSError, cOSError
  | cFileNotFoundError, (cFileNotFoundError | cOSError)
  | cValueError, cValueError
  | cJSONDecodeError, (cJSONDecodeError | cValueError)
  | cUnicodeDecodeError, (cUnicodeDecodeError | cValueError)
  | cUnicodeEncodeError, (cUnicodeEncodeError | cValueError)
  | cAttributeError, cAttributeError
  | cTypeError, cTypeError
  | cValidationError, (cValidationError | cValueError) => true
  | _, _ => false
  end.

(** What an [except d] clause tests. *)
Definition isinstance (e : exn) (d : exn_class) : bool :=
  issubclass (class_of e) d.

(** ** Results of calls that may raise *)

Inductive outcome (A : Type) : Type :=
| Return (a : A)
| Raise (e : exn).
Arguments Return {A} a.
Arguments Raise {A} e.

#[global] Instance outcome_ret : MRet outcome := fun A a => Return a.
#[global] Instance outcome_bind : MBind outcome := fun A B k m =>
  match m with
  | Return a => k a
  | Raise e => Raise e
  end.

(** ** The file system *)

(** [open(file_path, 'r')] followed by [json.load(file)]: the parsed value,
    or the exception either of them raised. *)
Definition filesystem : Type := string -> outcome value.

(** ** The schema *)

Record ConfigSchema : Type := mkConfigSchema {
  app_name : string;
  environment : string;
  debug : bool;
  db_url : string
}.

(** ASCII lower-casing, enough for the case-insensitive comparison of the
    boolean spellings (all of them ASCII). *)
Definition ascii_lower (c : ascii) : ascii :=
  let n := Ascii.N_of_ascii c in
  if ((65 <=? n) && (n <=? 90))%N then Ascii.ascii_of_N (n + 32) else c.

Fixpoint str_lower (s : string) : string :=
  match s with
  | EmptyString => EmptyString
  | String c s' => String (ascii_lower c) (str_lower s')
  end.

(** ASCII upper-casing: what [str.upper] does on ASCII text, such as the
    names of the four schema fields. *)
Definition ascii_upper (c : ascii) : ascii :=
  let n := Ascii.N_of_ascii c in
  if ((97 <=? n) && (n <=? 122))%N then Ascii.ascii_of_N (n - 32) else c.

Fixpoint str_upper (s : string) : string :=
  match s with
  | EmptyString => EmptyString
  | String c s' => String (ascii_upper c) (str_upper s')
  end.

(** The text has ASCII characters only. *)
Fixpoint is_ascii (s : string) : bool :=
  match s with
  | EmptyString => true
  | String c s' => (Ascii.N_of_ascii c <? 128)%N && is_ascii s'
  end.

Definition str_in (s : string) (l : list string) : bool :=
  existsb (String.eqb s) l.

(** Modelled from the spec: pydantic's conversion of a [str] given for a
    [bool] field is no part of the sources.  The spec asks for "common string
    encodings such as true/false", case-insensitive; the spellings here are
    those of pydantic's default mode, which contain them. *)
Definition str_as_bool (s : string) : option bool :=
  let s := str_lower s in
  if str_in s ["0"; "off"; "f"; "false"; "n"; "no"] then Some false
  else if str_in s ["1"; "on"; "t"; "true"; "y"; "yes"] then Some true
  else None.

(** The float equals [1.0]: mantissa [m] and exponent [e] with
    [m * 2^e = 1]. *)
Definition float_is_one (f : spec_float) : bool :=
  match f with
  | S754_finite false m e => Z.pos m =? 2 ^ (- e)
  | _ => false
  end.

(** Modelled from the spec: pydantic's validation of a field declared [str]
    is no part of the sources.  The value "must be representable as a
    non-null string": a [str] is taken as it is; nothing else is (pydantic's
    default mode on a Python value). *)
Definition str_validator (v : value) : option string :=
  match v with
  | VStr s => Some s
  | _ => None
  end.

(** Modelled from the spec: pydantic's validation of a field declared [bool]
    is no part of the sources.  The value "must coerce to boolean": a [bool]
    is taken as it is, a [str] among the accepted spellings is converted, and
    so are (pydantic's default mode) the integers 0 and 1 and the floats 0.0
    and 1.0. *)
Definition bool_validator (v : value) : option bool :=
  match v with
  | VBool b => Some b
  | VInt 0 => Some false
  | VInt 1 => Some true
  | VFloat (S754_zero _) => Some false
  | VFloat f => if float_is_one f then Some true else None
  | VStr s => str_as_bool s
  | _ => None
  end.

(** Modelled from the spec: how pydantic treats one required field is no
    part of the sources.  The "per-field problems" are "missing field" for an
    absent key and "wrong type" for a value the validator refuses. *)
Definition validate_field {A : Type} (validator : value -> option A)
    (name : string) (data : gmap string value) : error_details + A :=
  match data !! name with
  | None => inl (ErrorDetails name missing)
  | Some v =>
      match validator v with
      | Some a => inr a
      | None => inl (ErrorDetails name invalid)
      end
  end.

Definition field_errors {A : Type} (r : error_details + A) : list error_details :=
  match r with
  | inl e => [e]
  | inr _ => []
  end.

(** Modelled from the spec: the constructor [ConfigSchema] inherits from
    pydantic's [BaseModel] is no part of the sources; the four fields and
    their types are those of the class in the source.  Every field is
    validated, in declaration order; the problems of all fields are collected
    in one [ValidationError] ("carrying one entry per offending field").  Keys
    that name no field are not looked at ("ignore extras", pydantic's
    default). *)
Definition ConfigSchema_init (data : gmap string value) : outcome ConfigSchema :=
  let r1 := validate_field str_validator "app_name" data in
  let r2 := validate_field str_validator "environment" data in
  let r3 := validate_field bool_validator "debug" data in
  let r4 := validate_field str_validator "db_url" data in
  match r1, r2, r3, r4 with
  | inr a, inr e, inr d, inr u => Return (mkConfigSchema a e d u)
  | _, _, _, _ =>
      Raise (ValidationError
               (field_errors r1 ++ field_errors r2 ++ field_errors r3 ++ field_errors r4))
  end.

(** The call of [ConfigSchema] with [config] unpacked as keyword arguments:
    unpacking anything but a mapping is a [TypeError] (its message is
    shortened here). *)
Definition ConfigSchema_call (config : value) : outcome ConfigSchema :=
  match config with
  | VDict data => ConfigSchema_init data
  | _ => Raise (TypeError "argument after ** must be a mapping")
  end.

(** ** The loader *)

(** [_load_config_from_file].  A falsy parse result is reported as [None];
    each [except] clause raises the exception it caught again. *)
Definition _load_config_from_file (fs : filesystem) (file_path : string) : outcome value :=
  match fs file_path with
  | Return config =>
      if negb (truthy config) then Return VNone else Return config
  | Raise e =>
      if isinstance e cFileNotFoundError then Raise e
      else if isinstance e cJSONDecodeError then Raise e
      else if isinstance e cValueError then Raise e
      else Raise e
  end.

(** [type(v).__name__], as it appears in the message of an
    [AttributeError]. *)
Definition type_name (v : value) : string :=
  match v with
  | VNone => "NoneType"
  | VBool _ => "bool"
  | VInt _ => "int"
  | VFloat _ => "float"
  | VStr _ => "str"
  | VList _ => "list"
  | VDict _ => "dict"
  end.

(** [config.keys()]. *)
Definition keys (config : gmap string value) : list string :=
  (map_to_list config).*1.

Section Loader.

(** [str.upper] on text that is not all ASCII: Python's case mapping there is
    Unicode-wide and is left open. *)
Variable upper_unicode : string -> string.

(** Whether a name that is not all ASCII can be encoded for the lookup in the
    environment.  It depends on the platform's file system encoding; a lone
    surrogate, as a JSON escape can produce, is refused by all of them. *)
Variable fsencodable : string -> bool.

(** [str.upper]: on ASCII text the letters a-z become A-Z and nothing else
    changes. *)
Definition upper (s : string) : string :=
  if is_ascii s then str_upper s else upper_unicode s.

(** The name can be turned into an environment key.  ASCII names always
    can. *)
Definition encodable (name : string) : bool :=
  is_ascii name || fsencodable name.

(** [os.getenv(name)]: the variable's value, or [None] when it is not set (a
    variable set to the empty string is set).  A name that cannot be encoded
    raises [UnicodeEncodeError]. *)
Definition getenv (environ : gmap string string) (name : string)
    : outcome (option string) :=
  if encodable name then Return (environ !! name) else Raise UnicodeEncodeError.

(** The body of the [for] loop: [config[key] = env_value] when the variable is
    set.  The dict is updated in place; assigning to a key it already has
    does not change its size, so the iteration is not disturbed. *)
Definition override_key (environ : gmap string string)
    (config : gmap string value) (key : string) : outcome (gmap string value) :=
  env_value ← getenv environ (upper key);
  match env_value with
  | Some env_value => Return (<[key := VStr env_value]> config)
  | None => Return config
  end.

(** The [for] loop over a list of keys; it stops at the first key whose
    lookup raises.  The exception then leaves the function, and the partly
    updated dict, which [load_config] holds in a local variable only, is not
    seen again. *)
Fixpoint override_keys (environ : gmap string string) (ks : list string)
    (config : gmap string value) : outcome (gmap string value) :=
  match ks with
  | [] => Return config
  | key :: ks' =>
      config' ← override_key environ config key;
      override_keys environ ks' config'
  end.

(** The [for] loop over [config.keys()]. *)
Definition override_loop (environ : gmap string string)
    (config : gmap string value) : outcome (gmap string value) :=
  override_keys environ (keys config) config.

(** [_apply_environment_overrides].  [config.keys()] exists for dicts only. *)
Definition _apply_environment_overrides (environ : gmap string string)
    (config : value) : outcome value :=
  match config with
  | VDict d => d' ← override_loop environ d; Return (VDict d')
  | _ =>
      Raise (AttributeError
               ("'" ++ type_name config ++ "' object has no attribute 'keys'"))
  end.

(** [load_config]. *)
Definition load_config (fs : filesystem) (environ : gmap string string)
    (file_path : string) (env_override : bool) : outcome ConfigSchema :=
  config ← _load_config_from_file fs file_path;
  match config with
  | VNone => Raise (ValueError "Config is None. Please check the file content.")
  | _ =>
      config ← (if env_override
                then _apply_environment_overrides environ config
                else Return config);
      match ConfigSchema_call config with
      | Return c => Return c
      | Raise e =>
          if isinstance e cValidationError
          then Raise (ValueError "Invalid configuration data")
          else Raise e
      end
  end.

(** Every key of the dict has an upper-cased name the environment lookup can
    encode. *)
Definition names_encodable (d : gmap string value) : Prop :=
  ∀ k, is_Some (d !! k) → encodable (upper k) = true.

End Loader.

(** ** Sample inputs *)

(** The dict of a file that holds exactly the four schema fields. *)
Definition schema_dict (a e : string) (d : bool) (u : string) : gmap string value :=
  <["app_name" := VStr a]>
    (<["environment" := VStr e]>
       (<["debug" := VBool d]>
          (<["db_url" := VStr u]> ∅))).

(** A file system with one file at [path]. *)
Definition single_file (path : string) (content : value) : filesystem :=
  fun p => if String.eqb p path then Return content else Raise (FileNotFoundError p).

Definition sample_dict : gmap string value :=
  schema_dict "bar" "prod" false "postgres://host/db".

Definition sample_fs : filesystem := single_file "config.json" (VDict sample_dict).

(** [APP_NAME=foo]. *)
Definition env_app_name : gmap string string := {["APP_NAME" := "foo"]}.

(** [APP_NAME=foo] and [DEBUG=maybe]. *)
Definition env_bad_debug : gmap string string :=
  <["APP_NAME" := "foo"]> {["DEBUG" := "maybe"]}.

(** [APP_NAME=foo] and [DEBUG=TRUE]. *)
Definition env_good_debug : gmap string string :=
  <["APP_NAME" := "foo"]> {["DEBUG" := "TRUE"]}.

(** [LOG_LEVEL=debug]. *)
Definition env_log_level : gmap string string := {["LOG_LEVEL" := "debug"]}.

(** [DEBUG] set to the empty string. *)
Definition env_empty_debug : gmap string string := {["DEBUG" := EmptyString]}.

(** [{"app_name": "x"}]. *)
Definition only_app_name : gmap string value := {["app_name" := VStr "x"]}.

(** The schema fields and one key more. *)
Definition superset_dict : gmap string value :=
  <["log_level" := VInt 3]> sample_dict.

Definition required_fields : list string :=
  ["app_name"; "environment"; "debug"; "db_url"].

(** The key of the JSON text [{"\ud800": 1}]: one lone surrogate, U+D800,
    written here by the three bytes of its generalised UTF-8 form. *)
Definition surrogate_key : string :=
  String (Ascii.ascii_of_N 237)
    (String (Ascii.ascii_of_N 160) (String (Ascii.ascii_of_N 128) EmptyString)).

(** [str.upper] leaves a lone surrogate as it is; so does this instance for
    all text that is not ASCII. *)
Definition upper_caseless : string -> string := fun s => s.

(** An environment encoding that takes ASCII names only.  The lone surrogate
    is refused under every encoding. *)
Definition ascii_names_only : string -> bool := fun _ => false.

(** The schema fields and a key that is a lone surrogate. *)
Definition surrogate_dict : gmap string value :=
  <[surrogate_key := VInt 1]> sample_dict.

(** * Properties *)

Section Properties.

Variable upper_unicode : string -> string.
Variable fsencodable : string -> bool.

Local Abbreviation upper := (upper upper_unicode).
Local Abbreviation encodable := (encodable fsencodable).
Local Abbreviation getenv := (getenv fsencodable).
Local Abbreviation override_key := (override_key upper_unicode fsencodable).
Local Abbreviation override_keys := (override_keys upper_unicode fsencodable).
Local Abbreviation override_loop := (override_loop upper_unicode fsencodable).
Local Abbreviation _apply_environment_overrides :=
  (_apply_environment_overrides upper_unicode fsencodable).
Local Abbreviation load_config := (load_config upper_unicode fsencodable).
Local Abbreviation names_encodable := (names_encodable upper_unicode fsencodable).

Implicit Types (environ : gmap string string) (d m : gmap string value).
Implicit Types (k key : string) (fs : filesystem).

Lemma bind_Return {A B} (a : A) (f : A → outcome B) : (Return a ≫= f) = f a.
Proof. reflexivity. Qed.

Lemma bind_Raise {A B} (e : exn) (f : A → outcome B) : (Raise e ≫= f) = Raise e.
Proof. reflexivity. Qed.

(** ** The environment lookup *)

Lemma getenv_Return environ name (r : option string) :
  getenv environ name = Return r ↔ encodable name = true ∧ environ !! name = r.
Proof.
  unfold getenv. destruct (encodable name); split.
  - by intros [= <-].
  - by intros [_ <-].
  - done.
  - by intros [? _].
Qed.

Lemma getenv_encodable environ name :
  encodable name = true → getenv environ name = Return (environ !! name).
Proof. intros H. by apply getenv_Return. Qed.

Lemma getenv_not_encodable environ name :
  encodable name = false → getenv environ name = Raise UnicodeEncodeError.
Proof. intros H. unfold getenv. by rewrite H. Qed.

(** The names of the schema fields are ASCII: their upper-cased forms can
    always be looked up. *)
Lemma required_fields_encodable k :
  k ∈ required_fields → encodable (upper k) = true.
Proof.
  unfold required_fields. intros Hk.
  repeat (apply elem_of_cons in Hk as [->|Hk]; [reflexivity|]).
  by apply elem_of_nil in Hk.
Qed.

(** ** The override loop *)

Lemma elem_of_keys d k : k ∈ keys d ↔ is_Some (d !! k).
Proof.
  unfold keys. rewrite list_elem_of_fmap. split.
  - intros [[k' v] [-> Hin]]. apply elem_of_map_to_list in Hin. by exists v.
  - intros [v Hv]. exists (k, v). split; [done|]. by apply elem_of_map_to_list.
Qed.

Lemma override_key_encodable environ d k :
  encodable (upper k) = true →
  override_key environ d k =
    Return (match environ !! upper k with
            | Some s => <[k := VStr s]> d
            | None => d
            end).
Proof.
  intros H. unfold override_key. rewrite (getenv_encodable _ _ H), bind_Return.
  by destruct (environ !! upper k).
Qed.

Lemma override_key_not_encodable environ d k :
  encodable (upper k) = false →
  override_key environ d k = Raise UnicodeEncodeError.
Proof.
  intros H. unfold override_key. by rewrite (getenv_not_encodable _ _ H).
Qed.

Lemma override_keys_cons environ a (ks : list string) d :
  override_keys environ (a :: ks) d =
    (override_key environ d a ≫= override_keys environ ks).
Proof. reflexivity. Qed.

(** One completed pass over any list of keys, in any order: a key of the list
    whose variable is set ends up holding the variable's value, every other
    lookup is as before. *)
Lemma override_keys_lookup environ (ks : list string) d d' k :
  override_keys environ ks d = Return d' →
  d' !! k =
    if bool_decide (k ∈ ks) then
      match environ !! upper k with
      | Some s => Some (VStr s)
      | None => d !! k
      end
    else d !! k.
Proof.
  revert d. induction ks as [|a ks IH]; intros d Hrun.
  - simpl in Hrun. simplify_eq.
    case_bool_decide as Hin; [by apply elem_of_nil in Hin | done].
  - rewrite override_keys_cons in Hrun.
    destruct (encodable (upper a)) eqn:Ha;
      [|by rewrite (override_key_not_encodable _ _ _ Ha) in Hrun].
    rewrite (override_key_encodable _ _ _ Ha), bind_Return in Hrun.
    rewrite (IH _ Hrun). clear IH Hrun.
    assert (Hstep : match environ !! upper a with
                    | Some s => <[a := VStr s]> d
                    | None => d
                    end !! k =
                    if decide (k = a)
                    then match environ !! upper k with
                         | Some s => Some (VStr s)
                         | None => d !! k
                         end
                    else d !! k).
    { destruct (decide (k = a)) as [->|Hne].
      - destruct (environ !! upper a); [apply lookup_insert_eq | done].
      - destruct (environ !! upper a); [by apply lookup_insert_ne | done]. }
    rewrite Hstep. clear Hstep.
    destruct (decide (k = a)) as [->|Hne].
    + rewrite (bool_decide_eq_true_2 (a ∈ a :: ks)) by apply list_elem_of_here.
      case_bool_decide; by destruct (environ !! upper a).
    + destruct (decide (k ∈ ks)) as [Hin|Hnin].
      * rewrite !bool_decide_eq_true_2; [done | by apply list_elem_of_further | done].
      * rewrite !bool_decide_eq_false_2; [done | | done].
        rewrite elem_of_cons. by intros [?|?].
Qed.

Lemma override_keys_returns environ (ks : list string) d :
  (∀ k, k ∈ ks → encodable (upper k) = true) →
  ∃ d', override_keys environ ks d = Return d'.
Proof.
  revert d. induction ks as [|a ks IH]; intros d Hks.
  - by exists d.
  - rewrite override_keys_cons,
      (override_key_encodable _ _ _ (Hks a (list_elem_of_here _ _))), bind_Return.
    apply IH. intros k Hk. apply Hks. by apply list_elem_of_further.
Qed.

Lemma override_keys_raises environ (ks : list string) d k :
  k ∈ ks → encodable (upper k) = false →
  override_keys environ ks d = Raise UnicodeEncodeError.
Proof.
  revert d. induction ks as [|a ks IH]; intros d Hin Hk.
  - by apply elem_of_nil in Hin.
  - rewrite override_keys_cons.
    destruct (encodable (upper a)) eqn:Ha.
    + rewrite (override_key_encodable _ _ _ Ha), bind_Return.
      apply elem_of_cons in Hin as [->|Hin]; [congruence|]. by apply IH.
    + by rewrite (override_key_not_encodable _ _ _ Ha).
Qed.

Lemma override_keys_Return_inv environ (ks : list string) d d' k :
  override_keys environ ks d = Return d' → k ∈ ks → encodable (upper k) = true.
Proof.
  intros Hrun Hin. destruct (encodable (upper k)) eqn:Hk; [done|].
  by rewrite (override_keys_raises _ _ _ _ Hin Hk) in Hrun.
Qed.

Lemma override_keys_Raise_inv environ (ks : list string) d (e : exn) :
  override_keys environ ks d = Raise e → e = UnicodeEncodeError.
Proof.
  revert d. induction ks as [|a ks IH]; intros d Hrun; [done|].
  rewrite override_keys_cons in Hrun.
  destruct (encodable (upper a)) eqn:Ha.
  - rewrite (override_key_encodable _ _ _ Ha), bind_Return in Hrun. by eapply IH.
  - rewrite (override_key_not_encodable _ _ _ Ha), bind_Raise in Hrun.
    by simplify_eq.
Qed.

(** The loop of the source, over the dict's own keys. *)
Lemma override_loop_lookup environ d d' k :
  override_loop environ d = Return d' →
  d' !! k =
    match d !! k with
    | Some v =>
        Some (match environ !! upper k with
              | Some s => VStr s
              | None => v
              end)
    | None => None
    end.
Proof.
  unfold override_loop. intros Hrun. rewrite (override_keys_lookup _ _ _ _ _ Hrun).
  destruct (d !! k) as [v|] eqn:Hk.
  - rewrite bool_decide_eq_true_2 by (apply elem_of_keys; eauto).
    by destruct (environ !! upper k).
  - rewrite bool_decide_eq_false_2; [done|].
    rewrite elem_of_keys, Hk. by intros [? ?].
Qed.

Lemma override_loop_dom environ d d' :
  override_loop environ d = Return d' → dom d' = dom d.
Proof.
  intros Hrun. apply set_eq. intros k.
  rewrite !elem_of_dom, (override_loop_lookup _ _ _ _ Hrun).
  destruct (d !! k); [|done]. split; eauto.
Qed.

Lemma override_loop_returns environ d :
  names_encodable d → ∃ d', override_loop environ d = Return d'.
Proof.
  intros Hd. apply override_keys_returns. intros k Hk.
  apply Hd. by apply elem_of_keys.
Qed.

Lemma override_loop_Return_inv environ d d' :
  override_loop environ d = Return d' → names_encodable d.
Proof.
  intros Hrun k Hk. eapply override_keys_Return_inv; [exact Hrun|].
  by apply elem_of_keys.
Qed.

Lemma override_loop_raises environ d k :
  is_Some (d !! k) → encodable (upper k) = false →
  override_loop environ d = Raise UnicodeEncodeError.
Proof.
  intros Hk Hbad. eapply override_keys_raises; [|exact Hbad].
  by apply elem_of_keys.
Qed.

Lemma override_loop_Raise_inv environ d (e : exn) :
  override_loop environ d = Raise e → e = UnicodeEncodeError ∧ ¬ names_encodable d.
Proof.
  intros Hrun. split; [by eapply override_keys_Raise_inv|].
  intros Hd. destruct (override_loop_returns environ d Hd) as [d' Hd'].
  congruence.
Qed.

Lemma names_encodable_dom d d' :
  dom d' = dom d → names_encodable d → names_encodable d'.
Proof.
  intros Hdom Hd k Hk. apply Hd. by rewrite <-elem_of_dom, <-Hdom, elem_of_dom.
Qed.

Lemma override_loop_idemp environ d d' :
  override_loop environ d = Return d' → override_loop environ d' = Return d'.
Proof.
  intros Hrun.
  destruct (override_loop_returns environ d') as [d'' Hrun'].
  { eapply names_encodable_dom;
      [by eapply override_loop_dom | by eapply override_loop_Return_inv]. }
  rewrite Hrun'. f_equal. apply map_eq. intros k.
  rewrite (override_loop_lookup _ _ _ _ Hrun'), (override_loop_lookup _ _ _ _ Hrun).
  destruct (d !! k); [|done]. by destruct (environ !! upper k).
Qed.

Lemma apply_dict_Return environ d d' :
  override_loop environ d = Return d' →
  _apply_environment_overrides environ (VDict d) = Return (VDict d').
Proof. intros H. unfold _apply_environment_overrides. by rewrite H. Qed.

Lemma apply_dict_Raise environ d (e : exn) :
  override_loop environ d = Raise e →
  _apply_environment_overrides environ (VDict d) = Raise e.
Proof. intros H. unfold _apply_environment_overrides. by rewrite H. Qed.

Lemma apply_dict_Return_inv environ d (v : value) :
  _apply_environment_overrides environ (VDict d) = Return v →
  ∃ d', v = VDict d' ∧ override_loop environ d = Return d'.
Proof.
  unfold _apply_environment_overrides. intros H.
  destruct (override_loop environ d) as [d'|e]; [|done].
  rewrite bind_Return in H. simplify_eq. eauto.
Qed.

(** C5, as amended.  For every dict [d] all of whose keys have upper-cased
    names the environment lookup can encode, and every key [k] of [d]: when
    the environment variable named [upper k] is set to [s] (any string, the
    empty one included), [_apply_environment_overrides] returns a dict that
    maps [k] to the string [s], whatever the type of the value [d] held for
    [k]. *)
Theorem override_takes_env_value environ d k (s : string) :
  names_encodable d →
  is_Some (d !! k) →
  getenv environ (upper k) = Return (Some s) →
  ∃ d', _apply_environment_overrides environ (VDict d) = Return (VDict d')
        ∧ d' !! k = Some (VStr s).
Proof.
  intros Hd [v Hv] Henv. apply getenv_Return in Henv as [_ Henv].
  destruct (override_loop_returns environ d Hd) as [d' Hrun].
  exists d'. split; [by apply apply_dict_Return|].
  by rewrite (override_loop_lookup _ _ _ _ Hrun), Hv, Henv.
Qed.

(** C6, as amended.  For every dict [d] all of whose keys have upper-cased
    names the environment lookup can encode, [_apply_environment_overrides]
    returns a dict with the same key set as [d] (no key added, none
    removed), and every key whose upper-cased variable is not set keeps the
    value it had. *)
Theorem override_frame environ d :
  names_encodable d →
  ∃ d', _apply_environment_overrides environ (VDict d) = Return (VDict d')
        ∧ dom d' = dom d
        ∧ ∀ k, getenv environ (upper k) = Return None → d' !! k = d !! k.
Proof.
  intros Hd. destruct (override_loop_returns environ d Hd) as [d' Hrun].
  exists d'. split; [by apply apply_dict_Return|].
  split; [by eapply override_loop_dom|].
  intros k Henv. apply getenv_Return in Henv as [_ Henv].
  rewrite (override_loop_lookup _ _ _ _ Hrun), Henv. by destruct (d !! k).
Qed.

(** C9.  Idempotence: for a fixed environment, applying
    [_apply_environment_overrides] to its own result gives that result
    again (and where it raises, it raises both times). *)
Theorem override_idempotent environ (config : value) :
  (_apply_environment_overrides environ config
     ≫= _apply_environment_overrides environ)
  = _apply_environment_overrides environ config.
Proof.
  destruct config as [| | | | | |d]; try reflexivity.
  destruct (override_loop environ d) as [d'|e] eqn:Hrun.
  - rewrite (apply_dict_Return _ _ _ Hrun), bind_Return.
    apply apply_dict_Return. by eapply override_loop_idemp.
  - by rewrite (apply_dict_Raise _ _ _ Hrun).
Qed.

(** ** Reading the file *)

Lemma truthy_nonempty_dict d : d ≠ ∅ → truthy (VDict d) = true.
Proof.
  intros Hne. simpl. apply map_size_non_empty_iff in Hne.
  by destruct (size d).
Qed.

Lemma truthy_dict_nonempty d : truthy (VDict d) = true → d ≠ ∅.
Proof. intros Ht ->. simpl in Ht. by rewrite map_size_empty in Ht. Qed.

Lemma reraise_same fs file_path (e : exn) :
  fs file_path = Raise e → _load_config_from_file fs file_path = Raise e.
Proof.
  intros Hfs. unfold _load_config_from_file. rewrite Hfs.
  by repeat case_match.
Qed.

Lemma load_file_truthy fs file_path (v : value) :
  fs file_path = Return v → truthy v = true →
  _load_config_from_file fs file_path = Return v.
Proof.
  intros Hfs Ht. unfold _load_config_from_file. by rewrite Hfs, Ht.
Qed.

Lemma load_file_falsy fs file_path (v : value) :
  fs file_path = Return v → truthy v = false →
  _load_config_from_file fs file_path = Return VNone.
Proof.
  intros Hfs Ht. unfold _load_config_from_file. by rewrite Hfs, Ht.
Qed.

(** ** Validation *)

Lemma validate_field_ok {A} (validator : value → option A) name d v (a : A) :
  d !! name = Some v → validator v = Some a →
  validate_field validator name d = inr a.
Proof. intros Hl Hv. unfold validate_field. by rewrite Hl, Hv. Qed.

Lemma validate_field_missing {A} (validator : value → option A) name d :
  d !! name = None →
  validate_field validator name d = inl (ErrorDetails name missing).
Proof. intros Hl. unfold validate_field. by rewrite Hl. Qed.

(** The only exception the constructor raises is [ValidationError]. *)
Lemma ConfigSchema_init_raises d (e : exn) :
  ConfigSchema_init d = Raise e → ∃ errs, e = ValidationError errs.
Proof.
  unfold ConfigSchema_init. intros H.
  repeat case_match; simplify_eq; eauto.
Qed.

(** Four present, convertible values make the object. *)
Lemma ConfigSchema_init_valid d (va ve vd vu : value) a e (b : bool) u :
  d !! "app_name" = Some va → str_validator va = Some a →
  d !! "environment" = Some ve → str_validator ve = Some e →
  d !! "debug" = Some vd → bool_validator vd = Some b →
  d !! "db_url" = Some vu → str_validator vu = Some u →
  ConfigSchema_init d = Return (mkConfigSchema a e b u).
Proof.
  intros. unfold ConfigSchema_init.
  by erewrite !validate_field_ok by eassumption.
Qed.

(** The constructor reads the four schema fields and nothing else. *)
Lemma ConfigSchema_init_ext d1 d2 :
  (∀ k, k ∈ required_fields → d1 !! k = d2 !! k) →
  ConfigSchema_init d1 = ConfigSchema_init d2.
Proof.
  intros Hagree. unfold ConfigSchema_init, validate_field.
  rewrite !Hagree; [done | unfold required_fields; set_solver..].
Qed.

(** A successful construction read four present, convertible values. *)
Lemma ConfigSchema_init_Return_inv d (c : ConfigSchema) :
  ConfigSchema_init d = Return c →
  ∃ va ve vd vu,
    (d !! "app_name" = Some va ∧ str_validator va = Some (app_name c))
    ∧ (d !! "environment" = Some ve ∧ str_validator ve = Some (environment c))
    ∧ (d !! "debug" = Some vd ∧ bool_validator vd = Some (debug c))
    ∧ (d !! "db_url" = Some vu ∧ str_validator vu = Some (db_url c)).
Proof.
  unfold ConfigSchema_init, validate_field. intros H.
  destruct (d !! "app_name") as [va|]; [|by repeat case_match].
  destruct (str_validator va) as [a|] eqn:Ha; [|by repeat case_match].
  destruct (d !! "environment") as [ve|]; [|by repeat case_match].
  destruct (str_validator ve) as [e|] eqn:He; [|by repeat case_match].
  destruct (d !! "debug") as [vd|]; [|by repeat case_match].
  destruct (bool_validator vd) as [b|] eqn:Hb; [|by repeat case_match].
  destruct (d !! "db_url") as [vu|]; [|by repeat case_match].
  destruct (str_validator vu) as [u|] eqn:Hu; [|by repeat case_match].
  simplify_eq. exists va, ve, vd, vu. simpl. by rewrite Ha, He, Hb, Hu.
Qed.

Lemma ConfigSchema_init_missing d k :
  k ∈ required_fields → d !! k = None →
  ∃ errs, ConfigSchema_init d = Raise (ValidationError errs).
Proof.
  intros Hk Hnone.
  destruct (ConfigSchema_init d) as [c|e] eqn:Hinit.
  - apply ConfigSchema_init_Return_inv in Hinit
      as (va & ve & vd & vu & [H1 _] & [H2 _] & [H3 _] & [H4 _]).
    unfold required_fields in Hk.
    repeat (apply elem_of_cons in Hk as [->|Hk]; [congruence|]).
    by apply elem_of_nil in Hk.
  - apply ConfigSchema_init_raises in Hinit as [errs ->]. by exists errs.
Qed.

Lemma str_validator_inv (w : value) (s : string) :
  str_validator w = Some s → w = VStr s.
Proof. intros Hw. destruct w; simpl in Hw; by simplify_eq. Qed.

(** ** [load_config] on a file that holds a non-empty object *)

Lemma load_config_dict fs environ file_path (o : bool) d :
  fs file_path = Return (VDict d) → d ≠ ∅ →
  load_config fs environ file_path o =
    d' ← (if o then override_loop environ d else Return d);
    match ConfigSchema_init d' with
    | Return c => Return c
    | Raise _ => Raise (ValueError "Invalid configuration data")
    end.
Proof.
  intros Hfs Hne. unfold load_config.
  rewrite (load_file_truthy _ _ _ Hfs (truthy_nonempty_dict _ Hne)), bind_Return.
  assert (Hval : ∀ d', match ConfigSchema_call (VDict d') with
                       | Return c => Return c
                       | Raise e =>
                           if isinstance e cValidationError
                           then Raise (ValueError "Invalid configuration data")
                           else Raise e
                       end =
                       match ConfigSchema_init d' with
                       | Return c => Return c
                       | Raise _ => Raise (ValueError "Invalid configuration data")
                       end).
  { intros d'. simpl. destruct (ConfigSchema_init d') as [c|e] eqn:Hinit; [done|].
    by apply ConfigSchema_init_raises in Hinit as [errs ->]. }
  destruct o.
  - destruct (override_loop environ d) as [d'|e] eqn:Hrun.
    + by rewrite (apply_dict_Return _ _ _ Hrun), !bind_Return, Hval.
    + by rewrite (apply_dict_Raise _ _ _ Hrun).
  - by rewrite !bind_Return, Hval.
Qed.

(** An exception of the read (missing file, malformed JSON, ...) leaves
    [load_config] as it was raised. *)
Lemma load_config_read_error fs environ file_path (o : bool) (e : exn) :
  fs file_path = Raise e →
  load_config fs environ file_path o = Raise e.
Proof.
  intros Hfs. unfold load_config. by rewrite (reraise_same _ _ _ Hfs).
Qed.

Lemma lookup_is_Some_nonempty d k : is_Some (d !! k) → d ≠ ∅.
Proof. intros [v Hv] ->. by rewrite lookup_empty in Hv. Qed.

(** Where a returned object comes from. *)
Lemma load_config_Return_inv fs environ file_path (o : bool) (c : ConfigSchema) :
  load_config fs environ file_path o = Return c →
  ∃ d d', fs file_path = Return (VDict d) ∧ d ≠ ∅
       ∧ (if o then override_loop environ d else Return d) = Return d'
       ∧ ConfigSchema_init d' = Return c.
Proof.
  intros Hload.
  destruct (fs file_path) as [v|e] eqn:Hfs.
  - destruct (truthy v) eqn:Ht.
    + destruct v as [| | | | | |d];
        try (unfold load_config in Hload;
             rewrite (load_file_truthy _ _ _ Hfs Ht) in Hload;
             destruct o; discriminate).
      exists d. pose proof (truthy_dict_nonempty _ Ht) as Hne.
      rewrite (load_config_dict _ _ _ _ _ Hfs Hne) in Hload.
      destruct (if o then override_loop environ d else Return d) as [d'|e];
        [|done].
      rewrite bind_Return in Hload. exists d'.
      repeat split; try done. by destruct (ConfigSchema_init d').
    + unfold load_config in Hload.
      by rewrite (load_file_falsy _ _ _ Hfs Ht) in Hload.
  - by rewrite (load_config_read_error _ _ _ _ _ Hfs) in Hload.
Qed.

(** The keys of a file with exactly the four schema fields. *)
Lemma schema_dict_keys a e (b : bool) u k :
  is_Some (schema_dict a e b u !! k) → k ∈ required_fields.
Proof using Type.
  intros Hk. unfold required_fields.
  destruct (decide (k = "app_name")) as [->|H1]; [apply list_elem_of_here|].
  destruct (decide (k = "environment")) as [->|H2];
    [apply list_elem_of_further, list_elem_of_here|].
  destruct (decide (k = "debug")) as [->|H3];
    [do 2 apply list_elem_of_further; apply list_elem_of_here|].
  destruct (decide (k = "db_url")) as [->|H4];
    [do 3 apply list_elem_of_further; apply list_elem_of_here|].
  unfold schema_dict in Hk.
  rewrite !lookup_insert_ne, lookup_empty in Hk by congruence.
  destruct Hk as [? Hk]. discriminate Hk.
Qed.

Lemma schema_dict_encodable a e (b : bool) u :
  names_encodable (schema_dict a e b u).
Proof.
  intros k Hk. apply required_fields_encodable. by eapply schema_dict_keys.
Qed.

Lemma only_app_name_encodable : names_encodable only_app_name.
Proof.
  intros k Hk. destruct (decide (k = "app_name")) as [->|Hne]; [reflexivity|].
  unfold only_app_name in Hk. rewrite lookup_singleton_ne in Hk by done.
  by destruct Hk.
Qed.

(** A string field stays valid under an override, which stores a string. *)
Lemma str_field_after_override environ d d' k (v : value) (s : string) :
  override_loop environ d = Return d' →
  d !! k = Some v → str_validator v = Some s →
  ∃ v' s', d' !! k = Some v' ∧ str_validator v' = Some s'.
Proof.
  intros Hrun Hk Hv. rewrite (override_loop_lookup _ _ _ _ Hrun), Hk.
  destruct (environ !! upper k); eauto.
Qed.

(** C1.  Round trip: when the file parses to an object with exactly the four
    schema fields, strings for [app_name], [environment] and [db_url] and a
    boolean for [debug], and none of the four upper-cased variables is set,
    [load_config] returns the object with these four values. *)
Theorem load_config_round_trip fs environ file_path (o : bool) a e (b : bool) u :
  fs file_path = Return (VDict (schema_dict a e b u)) →
  getenv environ (upper "app_name") = Return None →
  getenv environ (upper "environment") = Return None →
  getenv environ (upper "debug") = Return None →
  getenv environ (upper "db_url") = Return None →
  load_config fs environ file_path o = Return (mkConfigSchema a e b u).
Proof.
  intros Hfs H1 H2 H3 H4.
  apply getenv_Return in H1 as [_ H1]. apply getenv_Return in H2 as [_ H2].
  apply getenv_Return in H3 as [_ H3]. apply getenv_Return in H4 as [_ H4].
  rewrite (load_config_dict _ _ _ _ _ Hfs)
    by (apply (lookup_is_Some_nonempty _ "app_name"); by eexists).
  assert (Hinit : ConfigSchema_init (schema_dict a e b u) =
                  Return (mkConfigSchema a e b u))
    by (by apply (ConfigSchema_init_valid _ (VStr a) (VStr e) (VBool b) (VStr u))).
  destruct o; [|by rewrite bind_Return, Hinit].
  destruct (override_loop_returns environ _ (schema_dict_encodable a e b u))
    as [d' Hrun].
  rewrite Hrun, bind_Return.
  rewrite (ConfigSchema_init_ext d' (schema_dict a e b u)); [by rewrite Hinit|].
  intros k Hk. rewrite (override_loop_lookup _ _ _ _ Hrun).
  unfold required_fields in Hk.
  repeat (apply elem_of_cons in Hk as [->|Hk];
          [first [by rewrite H1 | by rewrite H2 | by rewrite H3 | by rewrite H4]|]).
  exfalso. by apply elem_of_nil in Hk.
Qed.


(** C3, as amended.  When the file's content is exactly [{"app_name": "x"}],
    then for every environment and both values of [env_override] the schema
    validation inside [load_config] finds exactly the three missing fields
    [environment], [debug] and [db_url], one entry each, and [load_config]
    itself fails with [ValueError("Invalid configuration data")]. *)
Theorem missing_fields_reported fs environ file_path (o : bool) :
  fs file_path = Return (VDict only_app_name) →
  (∃ config,
      (if o then _apply_environment_overrides environ (VDict only_app_name)
       else Return (VDict only_app_name)) = Return config
      ∧ ConfigSchema_call config =
          Raise (ValidationError [ErrorDetails "environment" missing;
                                  ErrorDetails "debug" missing;
                                  ErrorDetails "db_url" missing]))
  ∧ load_config fs environ file_path o =
      Raise (ValueError "Invalid configuration data").
Proof.
  intros Hfs.
  assert (Hne : only_app_name ≠ ∅)
    by (apply (lookup_is_Some_nonempty _ "app_name"); by eexists).
  assert (∃ d', (if o then override_loop environ only_app_name
                 else Return only_app_name) = Return d'
                ∧ (∀ k, k ≠ "app_name" → d' !! k = None)
                ∧ ∃ s, d' !! "app_name" = Some (VStr s))
    as (d' & Hd' & Hmiss & s & Happ).
  { destruct o.
    - destruct (override_loop_returns environ _ only_app_name_encodable)
        as [d' Hrun].
      exists d'. split; [done|]. split.
      + intros k Hk. rewrite (override_loop_lookup _ _ _ _ Hrun).
        unfold only_app_name. by rewrite lookup_singleton_ne.
      + rewrite (override_loop_lookup _ _ _ _ Hrun). unfold only_app_name.
        rewrite lookup_singleton_eq. destruct (environ !! _); by eexists.
    - exists only_app_name. split; [done|]. split.
      + intros k Hk. unfold only_app_name. by rewrite lookup_singleton_ne.
      + by eexists. }
  assert (Hinit : ConfigSchema_init d' =
            Raise (ValidationError [ErrorDetails "environment" missing;
                                    ErrorDetails "debug" missing;
                                    ErrorDetails "db_url" missing])).
  { unfold ConfigSchema_init.
    rewrite (validate_field_ok _ _ _ _ s Happ eq_refl).
    by rewrite !validate_field_missing by (by apply Hmiss). }
  split.
  - exists (VDict d'). split; [|exact Hinit].
    destruct o; [|by simplify_eq]. by apply apply_dict_Return.
  - rewrite (load_config_dict _ _ _ _ _ Hfs Hne), Hd', bind_Return.
    by rewrite Hinit.
Qed.

(** C4.  When the file parses to the empty object, [load_config] fails for
    both values of [env_override] with the [ValueError] of its [None] guard;
    that exception is an instance neither of [FileNotFoundError] nor of
    [json.JSONDecodeError], and no [ConfigSchema] is returned. *)
Theorem empty_object_rejected fs environ file_path (o : bool) :
  fs file_path = Return (VDict ∅) →
  ∃ e, load_config fs environ file_path o = Raise e
       ∧ e = ValueError "Config is None. Please check the file content."
       ∧ isinstance e cFileNotFoundError = false
       ∧ isinstance e cJSONDecodeError = false.
Proof.
  intros Hfs. eexists. split; [|done].
  unfold load_config. by rewrite (load_file_falsy _ _ _ Hfs).
Qed.

(** C7, as amended.  A dict that holds valid values for the four schema
    fields validates whatever other keys it has: the object is built from the
    four values alone, and any dict that agrees with it on the four fields
    gives the same object.  For a file with such content [load_config]
    returns that object when [env_override] is false; when [env_override] is
    true it returns an object exactly if the upper-cased name of every key
    can be encoded for the environment lookup and the variable for [debug]
    is not set or holds a boolean spelling. *)
Theorem extra_keys_ignored fs environ file_path d
    (va ve vd vu : value) a e (b : bool) u :
  d !! "app_name" = Some va → str_validator va = Some a →
  d !! "environment" = Some ve → str_validator ve = Some e →
  d !! "debug" = Some vd → bool_validator vd = Some b →
  d !! "db_url" = Some vu → str_validator vu = Some u →
  ConfigSchema_init d = Return (mkConfigSchema a e b u)
  ∧ (∀ d', (∀ k, k ∈ required_fields → d' !! k = d !! k) →
           ConfigSchema_init d' = Return (mkConfigSchema a e b u))
  ∧ (fs file_path = Return (VDict d) →
     load_config fs environ file_path false = Return (mkConfigSchema a e b u)
     ∧ ((∃ c, load_config fs environ file_path true = Return c) ↔
        (names_encodable d
         ∧ ∀ s, getenv environ (upper "debug") = Return (Some s) →
                is_Some (str_as_bool s)))).
Proof.
  intros Ha Hva He Hve Hd Hvd Hu Hvu.
  assert (Hinit : ConfigSchema_init d = Return (mkConfigSchema a e b u))
    by (by eapply ConfigSchema_init_valid).
  split; [done|]. split.
  { intros d' Hagree. by rewrite (ConfigSchema_init_ext d' d). }
  intros Hfs.
  assert (Hne : d ≠ ∅) by (apply (lookup_is_Some_nonempty _ "app_name"); eauto).
  rewrite !(load_config_dict _ _ _ _ _ Hfs Hne), bind_Return, Hinit.
  split; [done|]. split.
  - intros [c Hc].
    destruct (override_loop environ d) as [d'|ex] eqn:Hrun; [|done].
    rewrite bind_Return in Hc. split; [by eapply override_loop_Return_inv|].
    intros s Hs. apply getenv_Return in Hs as [_ Hs].
    destruct (ConfigSchema_init d') as [c'|] eqn:Hinit'; [|done].
    apply ConfigSchema_init_Return_inv in Hinit'
      as (_ & _ & vd' & _ & _ & _ & [Hd' Hvd'] & _).
    rewrite (override_loop_lookup _ _ _ _ Hrun), Hd, Hs in Hd'. simplify_eq.
    simpl in Hvd'. eauto.
  - intros [Henc Hdebug].
    destruct (override_loop_returns environ d Henc) as [d' Hrun].
    rewrite Hrun, bind_Return.
    destruct (str_field_after_override _ _ _ _ _ _ Hrun Ha Hva)
      as (va' & a' & Ha' & Hva').
    destruct (str_field_after_override _ _ _ _ _ _ Hrun He Hve)
      as (ve' & e' & He' & Hve').
    destruct (str_field_after_override _ _ _ _ _ _ Hrun Hu Hvu)
      as (vu' & u' & Hu' & Hvu').
    assert (∃ vd' b', d' !! "debug" = Some vd' ∧ bool_validator vd' = Some b')
      as (vd' & b' & Hd' & Hvd').
    { rewrite (override_loop_lookup _ _ _ _ Hrun), Hd.
      destruct (environ !! upper "debug") as [s|] eqn:Hs; [|eauto].
      destruct (Hdebug s) as [b' Hb']; [|by exists (VStr s), b'].
      apply getenv_Return. split; [|done]. apply Henc. eauto. }
    rewrite (ConfigSchema_init_valid _ va' ve' vd' vu' a' e' b' u'); try done.
    by eexists.
Qed.

(** C8.  For the [debug] field the validator takes a literal boolean and the
    strings ["true"] and ["false"]: with valid strings for the other three
    fields, a dict whose [debug] is the boolean [b], or the string spelling
    of [b], validates to an object whose [debug] is [b]. *)
Theorem debug_bool_or_string d a e u (b : bool) (vd : value) :
  d !! "app_name" = Some (VStr a) →
  d !! "environment" = Some (VStr e) →
  d !! "db_url" = Some (VStr u) →
  d !! "debug" = Some vd →
  vd = VBool b ∨ vd = VStr (if b then "true" else "false") →
  ConfigSchema_init d = Return (mkConfigSchema a e b u).
Proof.
  intros Ha He Hu Hd Hvd.
  eapply ConfigSchema_init_valid; try eassumption; try reflexivity.
  destruct Hvd as [->| ->]; [done|]. by destruct b.
Qed.

(** C10.  When the top-level JSON value is falsy (for instance [null],
    [false], [0], the empty string, the empty array or the empty object),
    [_load_config_from_file] returns [None] and [load_config] raises, for
    both values of [env_override], the same
    [ValueError("Config is None. Please check the file content.")]. *)
Theorem falsy_top_level_rejected fs environ file_path (o : bool) (v : value) :
  fs file_path = Return v →
  v ∈ [VNone; VBool false; VInt 0; VStr EmptyString; VList []; VDict ∅]
    ∨ truthy v = false →
  _load_config_from_file fs file_path = Return VNone
  ∧ load_config fs environ file_path o =
      Raise (ValueError "Config is None. Please check the file content.").
Proof.
  intros Hfs Hv.
  assert (Hfalsy : truthy v = false).
  { destruct Hv as [Hin|]; [|done].
    repeat (apply elem_of_cons in Hin as [->|Hin]; [done|]).
    by apply elem_of_nil in Hin. }
  pose proof (load_file_falsy _ _ _ Hfs Hfalsy) as Hload.
  split; [done|]. unfold load_config. by rewrite Hload.
Qed.

(** ** Further properties of the loader *)

(** X1.  An exception raised while opening or parsing the file (missing
    file, malformed JSON, undecodable bytes, ...) leaves
    [_load_config_from_file] and [load_config] unchanged, whatever
    [env_override] is; it is not turned into the loader's own
    [ValueError]. *)
Theorem read_error_propagates fs environ file_path (o : bool) (e : exn) :
  fs file_path = Raise e →
  _load_config_from_file fs file_path = Raise e
  ∧ load_config fs environ file_path o = Raise e.
Proof.
  intros Hfs. split; [by apply reraise_same | by apply load_config_read_error].
Qed.

(** X2.  What [_load_config_from_file] returns is either [None] or the
    parsed value itself, which is then truthy: a falsy value other than
    [None] never comes back. *)
Theorem load_file_returns_none_or_truthy fs file_path (v : value) :
  _load_config_from_file fs file_path = Return v →
  v = VNone ∨ (truthy v = true ∧ fs file_path = Return v).
Proof.
  unfold _load_config_from_file. intros H.
  destruct (fs file_path) as [config|e].
  - destruct (truthy config) eqn:Ht; simpl in H; simplify_eq; auto.
  - repeat case_match; discriminate.
Qed.

(** X3.  A file whose top-level JSON value is truthy but not an object (a
    non-empty array or string, a non-zero number, [true]) makes
    [load_config] fail with an [AttributeError] when [env_override] is true
    and with a [TypeError] when it is false. *)
Theorem non_object_top_level fs environ file_path (v : value) :
  fs file_path = Return v →
  truthy v = true →
  (∀ d, v ≠ VDict d) →
  (∃ e, load_config fs environ file_path true = Raise e
        ∧ class_of e = cAttributeError)
  ∧ (∃ e, load_config fs environ file_path false = Raise e
          ∧ class_of e = cTypeError).
Proof.
  intros Hfs Ht Hnd. unfold load_config.
  rewrite (load_file_truthy _ _ _ Hfs Ht).
  destruct v as [| | | | | |d]; try discriminate;
    try (split; eexists; split; reflexivity).
  by destruct (Hnd d).
Qed.

(** X4.  [load_config] returns an object exactly when the file parses to an
    object, the override step (when [env_override] is true) returns a dict,
    and that dict (the file's own dict when [env_override] is false)
    validates to the object. *)
Theorem load_config_returns_iff fs environ file_path (o : bool) (c : ConfigSchema) :
  load_config fs environ file_path o = Return c ↔
  ∃ d d', fs file_path = Return (VDict d)
       ∧ (if o then _apply_environment_overrides environ (VDict d)
          else Return (VDict d)) = Return (VDict d')
       ∧ ConfigSchema_init d' = Return c.
Proof.
  split.
  - intros Hload.
    apply load_config_Return_inv in Hload as (d & d' & Hfs & _ & Hd' & Hinit).
    exists d, d'. split; [done|]. split; [|done].
    destruct o; [by apply apply_dict_Return | by simplify_eq].
  - intros (d & d' & Hfs & Hd' & Hinit).
    assert (Hloop : (if o then override_loop environ d else Return d) = Return d').
    { destruct o; [|by simplify_eq].
      apply apply_dict_Return_inv in Hd' as (d'' & ? & ?). by simplify_eq. }
    assert (Hne : d ≠ ∅).
    { apply ConfigSchema_init_Return_inv in Hinit
        as (va & _ & _ & _ & [Ha _] & _).
      apply (lookup_is_Some_nonempty _ "app_name").
      destruct o; [|simplify_eq; eauto].
      rewrite (override_loop_lookup _ _ _ _ Hloop) in Ha.
      destruct (d !! "app_name"); [eauto|done]. }
    by rewrite (load_config_dict _ _ _ _ _ Hfs Hne), Hloop, bind_Return, Hinit.
Qed.

(** X5.  Once the file has been read and parsed, [load_config] raises
    nothing but its two [ValueError]s; or, for a top-level value that is not
    an object, an [AttributeError] ([env_override] true) or a [TypeError]
    ([env_override] false); or, with [env_override] true on an object one of
    whose keys has a name the environment lookup cannot encode, a
    [UnicodeEncodeError].  A [ValidationError] never leaves it. *)
Theorem load_config_raises_only fs environ file_path (o : bool) (v : value) (e : exn) :
  fs file_path = Return v →
  load_config fs environ file_path o = Raise e →
  (e = ValueError "Config is None. Please check the file content."
   ∨ e = ValueError "Invalid configuration data"
   ∨ ((∀ d, v ≠ VDict d)
      ∧ class_of e = if o then cAttributeError else cTypeError)
   ∨ (e = UnicodeEncodeError ∧ o = true
      ∧ ∃ d, v = VDict d ∧ ¬ names_encodable d))
  ∧ isinstance e cValidationError = false.
Proof.
  intros Hfs Hload.
  assert (e = ValueError "Config is None. Please check the file content."
          ∨ e = ValueError "Invalid configuration data"
          ∨ ((∀ d, v ≠ VDict d)
             ∧ class_of e = if o then cAttributeError else cTypeError)
          ∨ (e = UnicodeEncodeError ∧ o = true
             ∧ ∃ d, v = VDict d ∧ ¬ names_encodable d)) as Hcases.
  { destruct (truthy v) eqn:Ht.
    - destruct v as [| | | | | |d]; [by simpl in Ht| | | | | |];
        try (unfold load_config in Hload;
             rewrite (load_file_truthy _ _ _ Hfs Ht), bind_Return in Hload;
             destruct o; simpl in Hload; simplify_eq;
             right; right; left; (split; [by intros d | done])).
      rewrite (load_config_dict _ _ _ _ _ Hfs (truthy_dict_nonempty _ Ht)) in Hload.
      destruct o.
      + destruct (override_loop environ d) as [d'|ex] eqn:Hrun.
        * rewrite bind_Return in Hload.
          destruct (ConfigSchema_init d'); simplify_eq. auto.
        * rewrite bind_Raise in Hload. simplify_eq.
          apply override_loop_Raise_inv in Hrun as [-> Hbad].
          right; right; right. eauto.
      + rewrite bind_Return in Hload.
        destruct (ConfigSchema_init d); simplify_eq. auto.
    - unfold load_config in Hload.
      rewrite (load_file_falsy _ _ _ Hfs Ht), bind_Return in Hload.
      simplify_eq. auto. }
  split; [done|].
  destruct Hcases as [->|[->|[[_ Hc]|[-> _]]]]; [done..| |done].
  unfold isinstance. rewrite Hc. by destruct o.
Qed.

(** X6.  The environment cannot supply a field the file lacks: when the
    file's object has no key for one of the four schema fields,
    [load_config] fails for both values of [env_override] and every
    environment, also one that sets the upper-cased variable of that field.
    It fails with the [None] guard's error for the empty object and with
    [ValueError("Invalid configuration data")] otherwise, unless
    [env_override] is true and a key's name cannot be encoded, which gives a
    [UnicodeEncodeError]. *)
Theorem missing_field_not_supplied_by_env fs environ file_path (o : bool) d k :
  fs file_path = Return (VDict d) →
  k ∈ required_fields →
  d !! k = None →
  ∃ e, load_config fs environ file_path o = Raise e
       ∧ (e = ValueError (if decide (d = ∅)
                          then "Config is None. Please check the file content."
                          else "Invalid configuration data")
          ∨ (e = UnicodeEncodeError ∧ o = true ∧ ¬ names_encodable d)).
Proof.
  intros Hfs Hk Hnone. destruct (decide (d = ∅)) as [->|Hne].
  - eexists. split; [|by left].
    unfold load_config. by rewrite (load_file_falsy _ _ _ Hfs).
  - rewrite (load_config_dict _ _ _ _ _ Hfs Hne).
    destruct o.
    + destruct (override_loop environ d) as [d'|ex] eqn:Hrun.
      * rewrite bind_Return.
        destruct (ConfigSchema_init_missing d' k Hk) as [errs ->].
        { by rewrite (override_loop_lookup _ _ _ _ Hrun), Hnone. }
        eexists. split; [done | by left].
      * rewrite bind_Raise.
        apply override_loop_Raise_inv in Hrun as [-> Hbad].
        eexists. split; [reflexivity|]. right. by repeat split.
    + rewrite bind_Return.
      destruct (ConfigSchema_init_missing d k Hk Hnone) as [errs ->].
      eexists. split; [done | by left].
Qed.

(** ** Further properties of the override step *)

(** Two environments with the same lookups for the keys of a list drive the
    loop over that list to the same outcome. *)
Lemma override_keys_agree env1 env2 (ks : list string) d :
  (∀ k, k ∈ ks → getenv env1 (upper k) = getenv env2 (upper k)) →
  override_keys env1 ks d = override_keys env2 ks d.
Proof.
  revert d. induction ks as [|a ks IH]; intros d Hagree; [done|].
  rewrite !override_keys_cons. unfold override_key.
  rewrite (Hagree a) by apply list_elem_of_here.
  destruct (getenv env2 (upper a)) as [r|ex]; [|done].
  rewrite !bind_Return.
  destruct r; apply IH; intros k Hk; apply Hagree; by apply list_elem_of_further.
Qed.

Lemma override_loop_unset environ d :
  (∀ k, is_Some (d !! k) → getenv environ (upper k) = Return None) →
  override_loop environ d = Return d.
Proof.
  intros Hunset.
  destruct (override_loop_returns environ d) as [d' Hrun].
  { intros k Hk. apply Hunset in Hk. by apply getenv_Return in Hk as [? _]. }
  rewrite Hrun. f_equal. apply map_eq. intros k.
  rewrite (override_loop_lookup _ _ _ _ Hrun).
  destruct (d !! k) as [v|] eqn:Hk; [|done].
  assert (Hnone : environ !! upper k = None).
  { apply (getenv_Return environ (upper k) None). apply Hunset. eauto. }
  by rewrite Hnone.
Qed.

(** X7.  When for every key of the dict the lookup of its upper-cased
    variable finds nothing, the override step returns the dict as it was,
    and for a file with that content [load_config] gives the same outcome
    with [env_override] true as with [env_override] false. *)
Theorem override_noop_when_unset fs environ file_path d :
  (∀ k, is_Some (d !! k) → getenv environ (upper k) = Return None) →
  _apply_environment_overrides environ (VDict d) = Return (VDict d)
  ∧ (fs file_path = Return (VDict d) →
     load_config fs environ file_path true =
     load_config fs environ file_path false).
Proof.
  intros Hunset. pose proof (override_loop_unset _ _ Hunset) as Hloop.
  split.
  - by apply apply_dict_Return.
  - intros Hfs. destruct (decide (d = ∅)) as [->|Hne].
    + unfold load_config. by rewrite (load_file_falsy _ _ _ Hfs).
    + rewrite !(load_config_dict _ _ _ _ _ Hfs Hne). by rewrite Hloop.
Qed.

(** X8.  The override step reads no variable but those named after the
    dict's keys: two environments that agree on these variables give the
    same result, however they differ elsewhere. *)
Theorem override_reads_key_variables_only env1 env2 d :
  (∀ k, is_Some (d !! k) → getenv env1 (upper k) = getenv env2 (upper k)) →
  _apply_environment_overrides env1 (VDict d) =
  _apply_environment_overrides env2 (VDict d).
Proof.
  intros Hagree. unfold _apply_environment_overrides, override_loop.
  rewrite (override_keys_agree env1 env2); [done|].
  intros k Hk. apply Hagree. by apply elem_of_keys.
Qed.

(** X9.  When [_apply_environment_overrides] returns, the dict it returns
    does not depend on the order in which the keys were visited: the loop
    over any list that holds exactly the dict's keys (in any order,
    repetitions allowed) returns the same dict. *)
Theorem override_order_irrelevant environ d d' (ks : list string) :
  (∀ k, k ∈ ks ↔ is_Some (d !! k)) →
  _apply_environment_overrides environ (VDict d) = Return (VDict d') →
  override_keys environ ks d = Return d'.
Proof.
  intros Hks Hrun.
  apply apply_dict_Return_inv in Hrun as (d1 & Heq & Hrun). simplify_eq.
  destruct (override_keys_returns environ ks d) as [d2 Hrun2].
  { intros k Hk. eapply override_loop_Return_inv; [exact Hrun|]. by apply Hks. }
  rewrite Hrun2. f_equal. apply map_eq. intros k.
  rewrite (override_keys_lookup _ _ _ _ _ Hrun2), (override_loop_lookup _ _ _ _ Hrun).
  destruct (d !! k) as [v|] eqn:Hk.
  - rewrite bool_decide_eq_true_2 by (apply Hks; eauto).
    by destruct (environ !! upper k).
  - rewrite bool_decide_eq_false_2; [done|].
    rewrite Hks, Hk. by intros [? ?].
Qed.

(** X10.  Two override steps in a row, first with environment [env1] and
    then with [env2], amount to one step with the environment in which the
    variables of [env2] take precedence over those of [env1]. *)
Theorem override_compose env1 env2 (config : value) :
  (_apply_environment_overrides env1 config
     ≫= _apply_environment_overrides env2)
  = _apply_environment_overrides (env2 ∪ env1) config.
Proof.
  destruct config as [| | | | | |d]; try reflexivity.
  destruct (override_loop env1 d) as [d1|e1] eqn:Hrun1.
  - rewrite (apply_dict_Return _ _ _ Hrun1), bind_Return.
    pose proof (override_loop_Return_inv _ _ _ Hrun1) as Henc.
    destruct (override_loop_returns (env2 ∪ env1) d Henc) as [d3 Hrun3].
    destruct (override_loop_returns env2 d1) as [d2 Hrun2].
    { eapply names_encodable_dom; [by eapply override_loop_dom | done]. }
    rewrite (apply_dict_Return _ _ _ Hrun2), (apply_dict_Return _ _ _ Hrun3).
    do 2 f_equal. apply map_eq. intros k.
    rewrite (override_loop_lookup _ _ _ _ Hrun2), (override_loop_lookup _ _ _ _ Hrun1),
      (override_loop_lookup _ _ _ _ Hrun3).
    destruct (d !! k) as [v|]; [|done].
    rewrite lookup_union.
    destruct (env2 !! upper k) as [s2|], (env1 !! upper k) as [s1|]; done.
  - rewrite (apply_dict_Raise _ _ _ Hrun1), bind_Raise.
    apply override_loop_Raise_inv in Hrun1 as [-> Hbad].
    destruct (override_loop (env2 ∪ env1) d) as [d3|e3] eqn:Hrun3.
    + destruct Hbad. by eapply override_loop_Return_inv.
    + rewrite (apply_dict_Raise _ _ _ Hrun3).
      by apply override_loop_Raise_inv in Hrun3 as [-> _].
Qed.

(** X11.  Where the fields of a result of [load_config] with [env_override]
    true come from: each of the four fields is the value of its upper-cased
    variable when that variable is set (converted to a boolean for [debug]),
    and otherwise the (validated) value the file holds for it. *)
Theorem override_result_fields fs environ file_path (c : ConfigSchema) :
  load_config fs environ file_path true = Return c →
  ∃ d, fs file_path = Return (VDict d)
    ∧ match getenv environ (upper "app_name") with
      | Return (Some s) => app_name c = s
      | Return None => d !! "app_name" = Some (VStr (app_name c))
      | Raise _ => False
      end
    ∧ match getenv environ (upper "environment") with
      | Return (Some s) => environment c = s
      | Return None => d !! "environment" = Some (VStr (environment c))
      | Raise _ => False
      end
    ∧ match getenv environ (upper "debug") with
      | Return (Some s) => str_as_bool s = Some (debug c)
      | Return None => ∃ v, d !! "debug" = Some v ∧ bool_validator v = Some (debug c)
      | Raise _ => False
      end
    ∧ match getenv environ (upper "db_url") with
      | Return (Some s) => db_url c = s
      | Return None => d !! "db_url" = Some (VStr (db_url c))
      | Raise _ => False
      end.
Proof.
  intros Hload.
  apply load_config_Return_inv in Hload as (d & d' & Hfs & _ & Hrun & Hinit).
  exists d. split; [done|].
  apply ConfigSchema_init_Return_inv in Hinit
    as (va & ve & vd & vu & [Ha Hva] & [He Hve] & [Hd Hvd] & [Hu Hvu]).
  simpl in Hrun.
  rewrite (override_loop_lookup _ _ _ "app_name" Hrun) in Ha.
  rewrite (override_loop_lookup _ _ _ "environment" Hrun) in He.
  rewrite (override_loop_lookup _ _ _ "debug" Hrun) in Hd.
  rewrite (override_loop_lookup _ _ _ "db_url" Hrun) in Hu.
  apply str_validator_inv in Hva. apply str_validator_inv in Hve.
  apply str_validator_inv in Hvu.
  assert (Henc : ∀ k, k ∈ required_fields →
            getenv environ (upper k) = Return (environ !! upper k)).
  { intros k Hk. by apply getenv_encodable, required_fields_encodable. }
  rewrite !Henc by (unfold required_fields; set_solver).
  repeat split.
  - destruct (d !! "app_name") as [v|]; [|done].
    destruct (environ !! upper "app_name"); by simplify_eq.
  - destruct (d !! "environment") as [v|]; [|done].
    destruct (environ !! upper "environment"); by simplify_eq.
  - destruct (d !! "debug") as [v|]; [|done].
    destruct (environ !! upper "debug"); simplify_eq; eauto.
  - destruct (d !! "db_url") as [v|]; [|done].
    destruct (environ !! upper "db_url"); by simplify_eq.
Qed.

(** X12.  A variable for [debug] that holds no boolean spelling (the empty
    string, for one) makes [load_config] with [env_override] true fail on
    every file that has a [debug] key, however valid the file is: with
    [ValueError("Invalid configuration data")], or with a
    [UnicodeEncodeError] when a key's name cannot be encoded. *)
Theorem invalid_debug_variable_fails fs environ file_path d (s : string) :
  fs file_path = Return (VDict d) →
  is_Some (d !! "debug") →
  getenv environ (upper "debug") = Return (Some s) →
  str_as_bool s = None →
  ∃ e, load_config fs environ file_path true = Raise e
       ∧ (e = ValueError "Invalid configuration data"
          ∨ (e = UnicodeEncodeError ∧ ¬ names_encodable d)).
Proof.
  intros Hfs [v Hv] Henv Hbad. apply getenv_Return in Henv as [_ Henv].
  rewrite (load_config_dict _ _ _ _ _ Hfs)
    by (apply (lookup_is_Some_nonempty _ "debug"); eauto).
  destruct (override_loop environ d) as [d'|ex] eqn:Hrun.
  - rewrite bind_Return.
    destruct (ConfigSchema_init d') as [c|e] eqn:Hinit;
      [|eexists; split; [reflexivity | by left]].
    apply ConfigSchema_init_Return_inv in Hinit
      as (_ & _ & vd & _ & _ & _ & [Hd Hvd] & _).
    rewrite (override_loop_lookup _ _ _ _ Hrun), Hv, Henv in Hd. simplify_eq.
    simpl in Hvd. congruence.
  - rewrite bind_Raise. apply override_loop_Raise_inv in Hrun as [-> Hnot].
    eexists. split; [reflexivity|]. right. by split.
Qed.

(** X13.  Overrides of the three string fields cannot break a file that is
    valid on its own: when [load_config] succeeds with [env_override] false
    on a file all of whose keys have names the environment lookup can
    encode, and the variable for [debug] is not set or holds a boolean
    spelling, it succeeds with [env_override] true as well. *)
Theorem override_keeps_valid fs environ file_path d (c : ConfigSchema) :
  fs file_path = Return (VDict d) →
  names_encodable d →
  load_config fs environ file_path false = Return c →
  (∀ s, getenv environ (upper "debug") = Return (Some s) → is_Some (str_as_bool s)) →
  ∃ c', load_config fs environ file_path true = Return c'.
Proof.
  intros Hfs Henc Hload Hdebug.
  apply load_config_Return_inv in Hload as (d0 & d0' & Hfs' & Hne & Heq & Hinit).
  rewrite Hfs in Hfs'. simplify_eq.
  apply ConfigSchema_init_Return_inv in Hinit
    as (va & ve & vd & vu & [Ha Hva] & [He Hve] & [Hd Hvd] & [Hu Hvu]).
  rewrite (load_config_dict _ _ _ _ _ Hfs Hne).
  destruct (override_loop_returns environ _ Henc) as [d' Hrun].
  rewrite Hrun, bind_Return.
  destruct (str_field_after_override _ _ _ _ _ _ Hrun Ha Hva)
    as (va' & a' & Ha' & Hva').
  destruct (str_field_after_override _ _ _ _ _ _ Hrun He Hve)
    as (ve' & e' & He' & Hve').
  destruct (str_field_after_override _ _ _ _ _ _ Hrun Hu Hvu)
    as (vu' & u' & Hu' & Hvu').
  assert (∃ vd' b', d' !! "debug" = Some vd' ∧ bool_validator vd' = Some b')
    as (vd' & b' & Hd' & Hvd').
  { rewrite (override_loop_lookup _ _ _ _ Hrun), Hd.
    destruct (environ !! upper "debug") as [s|] eqn:Hs; [|eauto].
    destruct (Hdebug s) as [b' Hb']; [|by exists (VStr s), b'].
    apply getenv_Return. split; [|done]. apply Henc. eauto. }
  rewrite (ConfigSchema_init_valid _ va' ve' vd' vu' a' e' b' u'); try done.
  by eexists.
Qed.

End Properties.

(** * Instances on the sample inputs

    The instances take [upper_caseless] for [str.upper] outside ASCII and
    [ascii_names_only] for the names the environment lookup can encode. *)

Lemma sample_dict_encodable :
  names_encodable upper_caseless ascii_names_only sample_dict.
Proof. apply schema_dict_encodable. Qed.

Lemma superset_dict_encodable :
  names_encodable upper_caseless ascii_names_only superset_dict.
Proof.
  intros k Hk. destruct (decide (k = "log_level")) as [->|Hne]; [reflexivity|].
  unfold superset_dict in Hk. rewrite lookup_insert_ne in Hk by done.
  by apply sample_dict_encodable.
Qed.

Lemma load_config_round_trip_witness :
  load_config upper_caseless ascii_names_only sample_fs ∅ "config.json" true =
  Return (mkConfigSchema "bar" "prod" false "postgres://host/db").
Proof.
  apply (load_config_round_trip upper_caseless ascii_names_only sample_fs ∅
           "config.json" true "bar" "prod" false "postgres://host/db");
    reflexivity.
Defined.



(** C3 as stated fails: what [load_config] raises for [{"app_name": "x"}] is
    a plain [ValueError] with a fixed message, not a [ValidationError]
    naming fields. *)
Lemma missing_fields_counterexample :
  single_file "config.json" (VDict only_app_name) "config.json" =
    Return (VDict only_app_name)
  ∧ load_config upper_caseless ascii_names_only
      (single_file "config.json" (VDict only_app_name))
      ∅ "config.json" true = Raise (ValueError "Invalid configuration data")
  ∧ ¬ ∃ errs, load_config upper_caseless ascii_names_only
                (single_file "config.json" (VDict only_app_name))
                ∅ "config.json" true = Raise (ValidationError errs).
Proof.
  assert (Hrun : load_config upper_caseless ascii_names_only
                   (single_file "config.json" (VDict only_app_name))
                   ∅ "config.json" true =
                 Raise (ValueError "Invalid configuration data"))
    by (vm_compute; reflexivity).
  repeat split; try reflexivity; try exact Hrun.
  intros [errs Herrs]. rewrite Hrun in Herrs. discriminate.
Qed.

Lemma missing_fields_reported_witness :
  (∃ config,
      _apply_environment_overrides upper_caseless ascii_names_only env_app_name
        (VDict only_app_name) = Return config
      ∧ ConfigSchema_call config =
          Raise (ValidationError [ErrorDetails "environment" missing;
                                  ErrorDetails "debug" missing;
                                  ErrorDetails "db_url" missing]))
  ∧ load_config upper_caseless ascii_names_only
      (single_file "config.json" (VDict only_app_name))
      env_app_name "config.json" true =
      Raise (ValueError "Invalid configuration data").
Proof.
  apply (missing_fields_reported upper_caseless ascii_names_only
           (single_file "config.json" (VDict only_app_name))
           env_app_name "config.json" true).
  reflexivity.
Defined.

Lemma empty_object_rejected_witness :
  ∃ e, load_config upper_caseless ascii_names_only
         (single_file "config.json" (VDict ∅))
         env_app_name "config.json" false = Raise e
       ∧ e = ValueError "Config is None. Please check the file content."
       ∧ isinstance e cFileNotFoundError = false
       ∧ isinstance e cJSONDecodeError = false.
Proof.
  apply (empty_object_rejected upper_caseless ascii_names_only
           (single_file "config.json" (VDict ∅)) env_app_name "config.json" false).
  reflexivity.
Defined.

(** C5 as stated fails: the dict has the key [debug] and [DEBUG] is set, but
    it also has a key that is a lone surrogate; the lookup for that key
    raises and no dict comes back. *)
Lemma override_takes_env_value_counterexample :
  is_Some (surrogate_dict !! "debug")
  ∧ getenv ascii_names_only env_empty_debug (upper upper_caseless "debug") =
      Return (Some EmptyString)
  ∧ _apply_environment_overrides upper_caseless ascii_names_only env_empty_debug
      (VDict surrogate_dict) = Raise UnicodeEncodeError
  ∧ ¬ ∃ d', _apply_environment_overrides upper_caseless ascii_names_only
              env_empty_debug (VDict surrogate_dict) = Return (VDict d')
            ∧ d' !! "debug" = Some (VStr EmptyString).
Proof.
  assert (Hrun : _apply_environment_overrides upper_caseless ascii_names_only
                   env_empty_debug (VDict surrogate_dict) =
                 Raise UnicodeEncodeError)
    by (vm_compute; reflexivity).
  split; [exists (VBool false); reflexivity|].
  split; [reflexivity|]. split; [exact Hrun|].
  intros [d' [Hd' _]]. rewrite Hrun in Hd'. discriminate.
Qed.

Lemma override_takes_env_value_witness :
  ∃ d', _apply_environment_overrides upper_caseless ascii_names_only
          env_empty_debug (VDict sample_dict) = Return (VDict d')
        ∧ d' !! "debug" = Some (VStr EmptyString).
Proof.
  apply (override_takes_env_value upper_caseless ascii_names_only
           env_empty_debug sample_dict "debug" EmptyString).
  - exact sample_dict_encodable.
  - exists (VBool false). reflexivity.
  - reflexivity.
Defined.

(** C6 as stated fails: on the dict of [{"\ud800": 1}] the override step
    raises and returns no dict at all. *)
Lemma override_frame_counterexample :
  _apply_environment_overrides upper_caseless ascii_names_only ∅
    (VDict {[surrogate_key := VInt 1]}) = Raise UnicodeEncodeError
  ∧ ¬ ∃ d', _apply_environment_overrides upper_caseless ascii_names_only ∅
              (VDict {[surrogate_key := VInt 1]}) = Return (VDict d')
            ∧ dom d' = dom ({[surrogate_key := VInt 1]} : gmap string value).
Proof.
  assert (Hrun : _apply_environment_overrides upper_caseless ascii_names_only ∅
                   (VDict {[surrogate_key := VInt 1]}) =
                 Raise UnicodeEncodeError)
    by (vm_compute; reflexivity).
  split; [exact Hrun|].
  intros [d' [Hd' _]]. rewrite Hrun in Hd'. discriminate.
Qed.

Lemma override_frame_witness :
  ∃ d', _apply_environment_overrides upper_caseless ascii_names_only
          env_good_debug (VDict superset_dict) = Return (VDict d')
        ∧ dom d' = dom superset_dict
        ∧ ∀ k, getenv ascii_names_only env_good_debug (upper upper_caseless k)
                 = Return None →
               d' !! k = superset_dict !! k.
Proof.
  apply (override_frame upper_caseless ascii_names_only env_good_debug
           superset_dict).
  exact superset_dict_encodable.
Defined.

(** C7 as stated fails: the four valid fields plus a key that is a lone
    surrogate make [load_config] raise, because of the extra key; and the
    four valid fields plus an ordinary extra key fail under [DEBUG=maybe]. *)
Lemma extra_keys_ignored_counterexample :
  surrogate_dict !! "app_name" = Some (VStr "bar")
  ∧ surrogate_dict !! "environment" = Some (VStr "prod")
  ∧ surrogate_dict !! "debug" = Some (VBool false)
  ∧ surrogate_dict !! "db_url" = Some (VStr "postgres://host/db")
  ∧ load_config upper_caseless ascii_names_only
      (single_file "config.json" (VDict surrogate_dict)) ∅ "config.json" true =
      Raise UnicodeEncodeError
  ∧ load_config upper_caseless ascii_names_only
      (single_file "config.json" (VDict superset_dict)) env_bad_debug
      "config.json" true = Raise (ValueError "Invalid configuration data")
  ∧ ¬ ∃ c, load_config upper_caseless ascii_names_only
             (single_file "config.json" (VDict surrogate_dict)) ∅
             "config.json" true = Return c.
Proof.
  assert (Hrun : load_config upper_caseless ascii_names_only
                   (single_file "config.json" (VDict surrogate_dict)) ∅
                   "config.json" true = Raise UnicodeEncodeError)
    by (vm_compute; reflexivity).
  do 4 (split; [reflexivity|]).
  split; [exact Hrun|]. split; [vm_compute; reflexivity|].
  intros [c Hc]. rewrite Hrun in Hc. discriminate.
Qed.

Lemma extra_keys_ignored_witness :
  load_config upper_caseless ascii_names_only
    (single_file "config.json" (VDict superset_dict))
    env_log_level "config.json" false =
    Return (mkConfigSchema "bar" "prod" false "postgres://host/db")
  ∧ ∃ c, load_config upper_caseless ascii_names_only
           (single_file "config.json" (VDict superset_dict))
           env_log_level "config.json" true = Return c.
Proof.
  destruct (extra_keys_ignored upper_caseless ascii_names_only
              (single_file "config.json" (VDict superset_dict))
              env_log_level "config.json" superset_dict
              (VStr "bar") (VStr "prod") (VBool false) (VStr "postgres://host/db")
              "bar" "prod" false "postgres://host/db"
              eq_refl eq_refl eq_refl eq_refl eq_refl eq_refl eq_refl eq_refl)
    as (_ & _ & Hload).
  destruct (Hload eq_refl) as [Hfalse Hiff].
  split; [exact Hfalse|]. apply Hiff. split.
  - exact superset_dict_encodable.
  - intros s Hs. vm_compute in Hs. discriminate.
Defined.

Lemma debug_bool_or_string_witness :
  ConfigSchema_init (<["debug" := VStr "true"]> sample_dict) =
  Return (mkConfigSchema "bar" "prod" true "postgres://host/db").
Proof.
  apply (debug_bool_or_string (<["debug" := VStr "true"]> sample_dict)
           "bar" "prod" "postgres://host/db" true (VStr "true"));
    try reflexivity.
  right. reflexivity.
Defined.

Lemma falsy_top_level_rejected_witness :
  _load_config_from_file (single_file "config.json" (VList [])) "config.json"
    = Return VNone
  ∧ load_config upper_caseless ascii_names_only
      (single_file "config.json" (VList []))
      env_app_name "config.json" true =
      Raise (ValueError "Config is None. Please check the file content.").
Proof.
  apply (falsy_top_level_rejected upper_caseless ascii_names_only
           (single_file "config.json" (VList [])) env_app_name
           "config.json" true (VList [])).
  - reflexivity.
  - right. reflexivity.
Defined.

(** ** Instances of the further properties *)

Lemma read_error_propagates_witness :
  _load_config_from_file sample_fs "missing.json" =
    Raise (FileNotFoundError "missing.json")
  ∧ load_config upper_caseless ascii_names_only sample_fs env_app_name
      "missing.json" true = Raise (FileNotFoundError "missing.json").
Proof.
  apply (read_error_propagates upper_caseless ascii_names_only sample_fs
           env_app_name "missing.json" true (FileNotFoundError "missing.json")).
  reflexivity.
Defined.

Lemma load_file_returns_none_or_truthy_witness :
  VDict sample_dict = VNone
  ∨ (truthy (VDict sample_dict) = true
     ∧ sample_fs "config.json" = Return (VDict sample_dict)).
Proof.
  apply (load_file_returns_none_or_truthy sample_fs "config.json" (VDict sample_dict)).
  reflexivity.
Defined.

Lemma non_object_top_level_witness :
  (∃ e, load_config upper_caseless ascii_names_only
          (single_file "config.json" (VList [VInt 1]))
          env_app_name "config.json" true = Raise e
        ∧ class_of e = cAttributeError)
  ∧ (∃ e, load_config upper_caseless ascii_names_only
            (single_file "config.json" (VList [VInt 1]))
            env_app_name "config.json" false = Raise e
          ∧ class_of e = cTypeError).
Proof.
  apply (non_object_top_level upper_caseless ascii_names_only
           (single_file "config.json" (VList [VInt 1])) env_app_name
           "config.json" (VList [VInt 1])).
  - reflexivity.
  - reflexivity.
  - intros d. discriminate.
Defined.

Lemma load_config_raises_only_witness :
  (UnicodeEncodeError = ValueError "Config is None. Please check the file content."
   ∨ UnicodeEncodeError = ValueError "Invalid configuration data"
   ∨ ((∀ d, VDict surrogate_dict ≠ VDict d)
      ∧ class_of UnicodeEncodeError = cAttributeError)
   ∨ (UnicodeEncodeError = UnicodeEncodeError ∧ true = true
      ∧ ∃ d, VDict surrogate_dict = VDict d
             ∧ ¬ names_encodable upper_caseless ascii_names_only d))
  ∧ isinstance UnicodeEncodeError cValidationError = false.
Proof.
  apply (load_config_raises_only upper_caseless ascii_names_only
           (single_file "config.json" (VDict surrogate_dict)) ∅
           "config.json" true (VDict surrogate_dict) UnicodeEncodeError).
  - reflexivity.
  - vm_compute. reflexivity.
Defined.

Lemma missing_field_not_supplied_by_env_witness :
  ∃ e, load_config upper_caseless ascii_names_only
         (single_file "config.json" (VDict only_app_name))
         {["DB_URL" := "postgres://env/db"]} "config.json" true = Raise e
       ∧ (e = ValueError (if decide (only_app_name = ∅)
                          then "Config is None. Please check the file content."
                          else "Invalid configuration data")
          ∨ (e = UnicodeEncodeError ∧ true = true
             ∧ ¬ names_encodable upper_caseless ascii_names_only only_app_name)).
Proof.
  apply (missing_field_not_supplied_by_env upper_caseless ascii_names_only
           (single_file "config.json" (VDict only_app_name))
           {["DB_URL" := "postgres://env/db"]} "config.json" true
           only_app_name "db_url").
  - reflexivity.
  - unfold required_fields. do 3 apply list_elem_of_further. apply list_elem_of_here.
  - reflexivity.
Defined.

Lemma override_noop_when_unset_witness :
  _apply_environment_overrides upper_caseless ascii_names_only env_log_level
    (VDict sample_dict) = Return (VDict sample_dict)
  ∧ (sample_fs "config.json" = Return (VDict sample_dict) →
     load_config upper_caseless ascii_names_only sample_fs env_log_level
       "config.json" true =
     load_config upper_caseless ascii_names_only sample_fs env_log_level
       "config.json" false).
Proof.
  apply (override_noop_when_unset upper_caseless ascii_names_only sample_fs
           env_log_level "config.json" sample_dict).
  intros k Hk. apply (schema_dict_keys "bar" "prod" false "postgres://host/db") in Hk.
  unfold required_fields in Hk.
  repeat (apply elem_of_cons in Hk as [->|Hk]; [reflexivity|]).
  exfalso. by apply elem_of_nil in Hk.
Defined.

Lemma override_reads_key_variables_only_witness :
  _apply_environment_overrides upper_caseless ascii_names_only env_app_name
    (VDict sample_dict) =
  _apply_environment_overrides upper_caseless ascii_names_only
    (<["PATH" := "/usr/bin"]> env_app_name) (VDict sample_dict).
Proof.
  apply (override_reads_key_variables_only upper_caseless ascii_names_only
           env_app_name (<["PATH" := "/usr/bin"]> env_app_name) sample_dict).
  intros k Hk. apply (schema_dict_keys "bar" "prod" false "postgres://host/db") in Hk.
  unfold required_fields in Hk.
  repeat (apply elem_of_cons in Hk as [->|Hk]; [reflexivity|]).
  exfalso. by apply elem_of_nil in Hk.
Defined.

Lemma override_order_irrelevant_witness :
  override_keys upper_caseless ascii_names_only env_good_debug
    ["db_url"; "debug"; "environment"; "app_name"; "debug"] sample_dict =
  Return (<["app_name" := VStr "foo"]> (<["debug" := VStr "TRUE"]> sample_dict)).
Proof.
  apply (override_order_irrelevant upper_caseless ascii_names_only env_good_debug
           sample_dict
           (<["app_name" := VStr "foo"]> (<["debug" := VStr "TRUE"]> sample_dict))
           ["db_url"; "debug"; "environment"; "app_name"; "debug"]).
  - intros k. split.
    + intros Hk.
      repeat (apply elem_of_cons in Hk as [->|Hk];
              [eexists; reflexivity|]).
      exfalso. by apply elem_of_nil in Hk.
    + intros Hk.
      apply (schema_dict_keys "bar" "prod" false "postgres://host/db") in Hk.
      unfold required_fields in Hk.
      repeat (apply elem_of_cons in Hk as [->|Hk];
              [repeat first [apply list_elem_of_here | apply list_elem_of_further]|]).
      exfalso. by apply elem_of_nil in Hk.
  - vm_compute. reflexivity.
Defined.

Lemma override_result_fields_witness :
  ∃ d, sample_fs "config.json" = Return (VDict d)
    ∧ "foo" = "foo"
    ∧ d !! "environment" = Some (VStr "prod")
    ∧ str_as_bool "TRUE" = Some true
    ∧ d !! "db_url" = Some (VStr "postgres://host/db").
Proof.
  exact (override_result_fields upper_caseless ascii_names_only sample_fs
           env_good_debug "config.json"
           (mkConfigSchema "foo" "prod" true "postgres://host/db") eq_refl).
Defined.

Lemma invalid_debug_variable_fails_witness :
  ∃ e, load_config upper_caseless ascii_names_only sample_fs env_empty_debug
         "config.json" true = Raise e
       ∧ (e = ValueError "Invalid configuration data"
          ∨ (e = UnicodeEncodeError
             ∧ ¬ names_encodable upper_caseless ascii_names_only sample_dict)).
Proof.
  apply (invalid_debug_variable_fails upper_caseless ascii_names_only sample_fs
           env_empty_debug "config.json" sample_dict EmptyString).
  - reflexivity.
  - exists (VBool false). reflexivity.
  - reflexivity.
  - reflexivity.
Defined.

Lemma override_keeps_valid_witness :
  ∃ c', load_config upper_caseless ascii_names_only sample_fs env_good_debug
          "config.json" true = Return c'.
Proof.
  apply (override_keeps_valid upper_caseless ascii_names_only sample_fs
           env_good_debug "config.json" sample_dict
           (mkConfigSchema "bar" "prod" false "postgres://host/db")).
  - reflexivity.
  - exact sample_dict_encodable.
  - reflexivity.
  - intros s Hs. vm_compute in Hs. injection Hs as <-. exists true. reflexivity.
Defined.
